(** * The usage command of the metadata CLI: [run_usage]

    A shallow embedding of [ingestion/src/metadata/cli/usage.py].

    [run_usage] is glue code: it loads a configuration file, builds a
    [UsageWorkflow] from it, and drives the workflow through [execute],
    [stop], [print_status] and [raise_from_status].  Everything it calls lives
    in other modules, so the collaborators are a record of operations over an
    abstract world, each of which either returns or raises, and [run_usage] is
    a program in an exception-over-state monad that records every call it makes
    in a trace.  The properties below are statements about that trace and about
    the way the program ends. *)

From Stdlib Require Import List String ZArith Bool Lia.
From ExtLib Require Import Structures.Monad Structures.MonadState Structures.MonadExc.
From ExtLib Require Import Data.Monads.StateMonad Data.Monads.EitherMonad.
Import ListNotations.
Import MonadNotation.
Local Open Scope monad_scope.
Local Open Scope string_scope.
Local Open Scope list_scope.

Set Implicit Arguments.

(** ** Python values the orchestrator handles *)

(** A raised Python object.  [except Exception] catches the instances of
    [Exception] and lets the other instances of [BaseException] through
    ([KeyboardInterrupt], [GeneratorExit], and the [SystemExit] that
    [sys.exit] raises). *)
Inductive exn : Type :=
| Exc (cls : string) (msg : string)
| BaseExc (cls : string)
| SystemExit (code : Z).

Definition isinstance_Exception (e : exn) : bool :=
  match e with
  | Exc _ _ => true
  | BaseExc _ => false
  | SystemExit _ => false
  end.

(** [pathlib.Path], by its text. *)
Definition Path : Type := string.

(** Modelled from the spec: the enumeration [PipelineType] is generated from
    the ingestion pipeline schema, outside [metadata.cli.usage]; the members
    are the workflow kinds the specification lists.  [run_usage] only ever
    names [PipelineType.usage]. *)
Inductive PipelineType : Type :=
| metadata
| usage
| lineage
| profiler
| TestSuite.

(** Modelled from the spec: the terminal status a workflow records while it
    executes. *)
Inductive Status : Type :=
| Success
| PartialFailure
| Failure.

(** What a call into another module does: it returns a value or raises. *)
Definition outcome (A : Type) : Type := (exn + A)%type.

Section Orchestrator.

(** The parsed configuration ([dict]), the workflow object, and the state of
    everything outside [run_usage] (file system, services, the workflow's
    own fields). *)
Context {ConfigDict Workflow World : Type}.

Definition extern (A : Type) : Type := World -> outcome A * World.

(** The modules [run_usage] imports.  [format_config w] is the evaluation of
    the replacement field [{workflow.config}] of the f-string on line 41:
    an attribute lookup followed by [format].  [format_exc e] is the text
    [traceback.format_exc()] returns while [e] is being handled. *)
Record Collaborators : Type := {
  load_config_file : Path -> extern ConfigDict;
  UsageWorkflow_create : ConfigDict -> extern Workflow;
  format_config : Workflow -> extern string;
  format_exc : exn -> string;
  print_init_error : exn -> option ConfigDict -> PipelineType -> extern unit;
  execute : Workflow -> extern unit;
  stop : Workflow -> extern unit;
  print_status : Workflow -> extern unit;
  raise_from_status : Workflow -> extern unit
}.

(** *** The trace *)

Inductive call : Type :=
| call_load_config_file (config_path : Path)
| call_create (config_dict : ConfigDict)
| call_format_config (w : Workflow)
| call_logger_debug (msg : string)
| call_print_init_error (exc : exn) (config_dict : option ConfigDict)
                        (kind : PipelineType)
| call_sys_exit (code : Z)
| call_execute (w : Workflow)
| call_stop (w : Workflow)
| call_print_status (w : Workflow)
| call_raise_from_status (w : Workflow).

(** One entry per call, in program order, with the exception it raised. *)
Record event : Type := Event {
  ev_call : call;
  ev_raised : option exn
}.

(** *** The frame of [run_usage] *)

(** The two local variables, the world and the trace.  [config_dict] holds
    Python's [None] until the loader has returned; [workflow] is unbound
    until the factory has returned. *)
Record Frame : Type := {
  world : World;
  trace : list event;
  config_dict : option ConfigDict;
  workflow : option Workflow
}.

Definition enter (sigma : World) : Frame :=
  {| world := sigma; trace := []; config_dict := None; workflow := None |}.

Definition M : Type -> Type := eitherT exn (state Frame).

Definition raised_by {A : Type} (r : outcome A) : option exn :=
  match r with
  | inl e => Some e
  | inr _ => None
  end.

(** A call into another module: run it on the world, log it, and pass on
    what it returned or raised. *)
Definition invoke {A : Type} (c : call) (f : extern A) : M A :=
  mkEitherT (mkState (fun fr =>
    let (r, sigma) := f (world fr) in
    (r, {| world := sigma;
           trace := trace fr ++ [Event c (raised_by r)];
           config_dict := config_dict fr;
           workflow := workflow fr |}))).

Definition assign_config_dict (v : option ConfigDict) : M unit :=
  fr <- get ;;
  put {| world := world fr; trace := trace fr;
         config_dict := v; workflow := workflow fr |}.

Definition assign_workflow (w : Workflow) : M unit :=
  fr <- get ;;
  put {| world := world fr; trace := trace fr;
         config_dict := config_dict fr; workflow := Some w |}.

Definition read_config_dict : M (option ConfigDict) :=
  fr <- get ;; ret (config_dict fr).

(** Reading a local that was never assigned raises [UnboundLocalError]. *)
Definition read_workflow : M Workflow :=
  fr <- get ;;
  match workflow fr with
  | Some w => ret w
  | None => raise (Exc "UnboundLocalError" "workflow")
  end.

(** [logger.debug(msg)]: the logging module hands the record to its handlers
    and returns. *)
Definition logger_debug (msg : string) : M unit :=
  invoke (call_logger_debug msg) (fun sigma => (inr tt, sigma)).

(** [sys.exit(code)] raises [SystemExit(code)]. *)
Definition sys_exit {A : Type} (code : Z) : M A :=
  invoke (call_sys_exit code) (fun sigma => (inl (SystemExit code), sigma)).

(** [try: body except Exception as exc: handler exc]. *)
Definition try_except_Exception {A : Type} (body : M A) (handler : exn -> M A)
  : M A :=
  catch body
        (fun exc => if isinstance_Exception exc then handler exc else raise exc).

Variable env : Collaborators.

(** *** [run_usage], lines 30 to 50 *)
Definition run_usage (config_path : Path) : M unit :=
  assign_config_dict None ;;
  try_except_Exception
    (d <- invoke (call_load_config_file config_path)
                 (load_config_file env config_path) ;;
     assign_config_dict (Some d) ;;
     w <- invoke (call_create d) (UsageWorkflow_create env d) ;;
     assign_workflow w ;;
     s <- invoke (call_format_config w) (format_config env w) ;;
     logger_debug ("Using config: " ++ s)%string)
    (fun exc =>
       logger_debug (format_exc env exc) ;;
       cfg <- read_config_dict ;;
       invoke (call_print_init_error exc cfg usage)
              (print_init_error env exc cfg usage) ;;
       sys_exit 1) ;;
  w <- read_workflow ;;
  invoke (call_execute w) (execute env w) ;;
  w <- read_workflow ;;
  invoke (call_stop w) (stop env w) ;;
  w <- read_workflow ;;
  invoke (call_print_status w) (print_status env w) ;;
  w <- read_workflow ;;
  invoke (call_raise_from_status w) (raise_from_status env w).

(** One invocation, from a fresh frame. *)
Definition run (config_path : Path) (sigma : World) : outcome unit * Frame :=
  runState (unEitherT (run_usage config_path)) (enter sigma).

Definition ending (config_path : Path) (sigma : World) : outcome unit :=
  fst (run config_path sigma).

Definition calls (config_path : Path) (sigma : World) : list event :=
  trace (snd (run config_path sigma)).

End Orchestrator.

Arguments Collaborators : clear implicits.
Arguments call : clear implicits.
Arguments event : clear implicits.
Arguments Frame : clear implicits.

(** Modelled from the spec: the process boundary above [run_usage] (the CLI
    entry point that calls it is another module).  A normal return ends the
    process with code 0, [SystemExit(code)] ends it with [code], and any other
    exception that reaches the top level ends it with a nonzero code, which is
    1 for the Python interpreter. *)
Definition process_exit_code (r : outcome unit) : Z :=
  match r with
  | inr _ => 0
  | inl (SystemExit code) => code
  | inl _ => 1
  end%Z.

(** ** What a trace shows *)

Section Observations.

Context {ConfigDict Workflow World : Type}.

Definition Call : Type := call ConfigDict Workflow.
Definition Trace : Type := list (event ConfigDict Workflow).

(** The six steps of the workflow's life, in the order of the source. *)
Inductive step : Type :=
| step_load_config_file
| step_create
| step_execute
| step_stop
| step_print_status
| step_raise_from_status.

Definition lifecycle : list step :=
  [step_load_config_file; step_create; step_execute; step_stop;
   step_print_status; step_raise_from_status].


Definition step_of (c : Call) : option step :=
  match c with
  | call_load_config_file _ => Some step_load_config_file
  | call_create _ => Some step_create
  | call_execute _ => Some step_execute
  | call_stop _ => Some step_stop
  | call_print_status _ => Some step_print_status
  | call_raise_from_status _ => Some step_raise_from_status
  | _ => None
  end.

(** The steps a trace went through. *)
Fixpoint steps (tr : Trace) : list step :=
  match tr with
  | [] => []
  | ev :: rest =>
      match step_of (ev_call ev) with
      | Some s => s :: steps rest
      | None => steps rest
      end
  end.

(** The calls of the [try] block: the loader, the factory, and the
    rendering of [workflow.config] for the debug line. *)
Definition in_try_block (c : Call) : bool :=
  match c with
  | call_load_config_file _ | call_create _ | call_format_config _ => true
  | _ => false
  end.

(** The calls made on the workflow after the [try] statement. *)
Definition after_try_block (c : Call) : bool :=
  match c with
  | call_execute _ | call_stop _ | call_print_status _
  | call_raise_from_status _ => true
  | _ => false
  end.


(** The arguments of every call to the reporter. *)
Fixpoint reports (tr : Trace)
  : list (exn * option ConfigDict * PipelineType) :=
  match tr with
  | [] => []
  | ev :: rest =>
      match ev_call ev with
      | call_print_init_error exc cfg kind => (exc, cfg, kind) :: reports rest
      | _ => reports rest
      end
  end.

(** The messages handed to [logger.debug]. *)
Fixpoint debug_log (tr : Trace) : list string :=
  match tr with
  | [] => []
  | ev :: rest =>
      match ev_call ev with
      | call_logger_debug msg => msg :: debug_log rest
      | _ => debug_log rest
      end
  end.



(** [a] occurs in the trace, and [b] occurs later. *)
Definition precedes (a b : event ConfigDict Workflow) (tr : Trace) : Prop :=
  exists l1 l2 l3, tr = l1 ++ a :: l2 ++ b :: l3.

(** Modelled from the spec: what the lifecycle contract says about the
    status of a workflow (the workflow classes live in [metadata.workflow]).
    [status w sigma] is the status [w] has recorded in [sigma], if any.  The
    status is terminal: once settled, neither [stop] nor [print_status]
    changes it, whatever else they do to the world (release resources, print)
    and whether they return or raise.  [raise_from_status] raises an
    exception exactly when the settled status is not [Success]. *)
Record WorkflowContract (env : Collaborators ConfigDict Workflow World)
       (status : Workflow -> World -> option Status) : Prop := {
  stop_keeps_status : forall w sigma s r sigma',
    status w sigma = Some s ->
    stop env w sigma = (r, sigma') ->
    status w sigma' = Some s;
  print_status_keeps_status : forall w sigma s r sigma',
    status w sigma = Some s ->
    print_status env w sigma = (r, sigma') ->
    status w sigma' = Some s;
  raise_from_status_passes : forall w sigma,
    status w sigma = Some Success ->
    exists sigma', raise_from_status env w sigma = (inr tt, sigma');
  raise_from_status_raises : forall w sigma s,
    status w sigma = Some s -> s <> Success ->
    exists e sigma', isinstance_Exception e = true
                     /\ raise_from_status env w sigma = (inl e, sigma')
}.

(** The workflow object a call is made on: the rendering of
    [workflow.config] and the four methods called after the [try]
    statement. *)
Definition workflow_of (c : Call) : option Workflow :=
  match c with
  | call_format_config w | call_execute w | call_stop w
  | call_print_status w | call_raise_from_status w => Some w
  | _ => None
  end.

(** The codes handed to [sys.exit]. *)
Fixpoint exits (tr : Trace) : list Z :=
  match tr with
  | [] => []
  | ev :: rest =>
      match ev_call ev with
      | call_sys_exit code => code :: exits rest
      | _ => exits rest
      end
  end.


End Observations.

(** ** A scripted world for concrete runs *)

Module Script.

Definition ConfigDict : Type := list (string * string).

(** The workflow object keeps the configuration it was built from. *)
Record Workflow : Type := { config : ConfigDict }.

(** The status the workflow has recorded, if it has run, and whether it has
    been stopped. *)
Record World : Type := { recorded : option Status; stopped : bool }.

Definition boot : World := {| recorded := None; stopped := false |}.

Definition doc : ConfigDict := [("source", "snowflake-usage")].

(** What each collaborator is scripted to do. *)
Record Plan : Type := {
  on_load : outcome ConfigDict;
  on_create : outcome unit;
  on_format : outcome string;
  on_report : outcome unit;
  on_execute : outcome Status;
  on_stop : outcome unit;
  on_print_status : outcome unit
}.

Definition WorkflowFailed : exn := Exc "WorkflowExecutionError" "workflow failed".

Definition play (p : Plan) : Collaborators ConfigDict Workflow World := {|
  load_config_file := fun _ sigma => (on_load p, sigma);
  UsageWorkflow_create := fun d sigma =>
    (match on_create p with
     | inl e => inl e
     | inr _ => inr {| config := d |}
     end, sigma);
  format_config := fun _ sigma => (on_format p, sigma);
  format_exc := fun e =>
    match e with
    | Exc cls msg =>
        ("Traceback (most recent call last): " ++ cls ++ ": " ++ msg)%string
    | BaseExc cls => ("Traceback (most recent call last): " ++ cls)%string
    | SystemExit _ => "Traceback (most recent call last): SystemExit"
    end;
  print_init_error := fun _ _ _ sigma => (on_report p, sigma);
  execute := fun _ sigma =>
    match on_execute p with
    | inl e => (inl e, sigma)
    | inr s => (inr tt, {| recorded := Some s; stopped := stopped sigma |})
    end;
  stop := fun _ sigma =>
    match on_stop p with
    | inl e => (inl e, sigma)
    | inr _ => (inr tt, {| recorded := recorded sigma; stopped := true |})
    end;
  print_status := fun _ sigma => (on_print_status p, sigma);
  raise_from_status := fun _ sigma =>
    (match recorded sigma with
     | Some Success => inr tt
     | _ => inl WorkflowFailed
     end, sigma)
|}.

(** Everything works and the workflow records [Success]. *)
Definition happy : Plan := {|
  on_load := inr doc;
  on_create := inr tt;
  on_format := inr "source=snowflake-usage";
  on_report := inr tt;
  on_execute := inr Success;
  on_stop := inr tt;
  on_print_status := inr tt
|}.

(** The workflow runs and records [Failure]. *)
Definition failing : Plan := {|
  on_load := inr doc;
  on_create := inr tt;
  on_format := inr "source=snowflake-usage";
  on_report := inr tt;
  on_execute := inr Failure;
  on_stop := inr tt;
  on_print_status := inr tt
|}.

Definition FileNotFoundError : exn :=
  Exc "FileNotFoundError" "usage.yaml".

(** The configuration file is not there. *)
Definition missing_file : Plan := {|
  on_load := inl FileNotFoundError;
  on_create := inr tt;
  on_format := inr "source=snowflake-usage";
  on_report := inr tt;
  on_execute := inr Success;
  on_stop := inr tt;
  on_print_status := inr tt
|}.

Definition ValidationError : exn :=
  Exc "ValidationError" "workflowConfig: field required".

(** The file parses and the factory rejects the document. *)
Definition invalid_document : Plan := {|
  on_load := inr doc;
  on_create := inl ValidationError;
  on_format := inr "source=snowflake-usage";
  on_report := inr tt;
  on_execute := inr Success;
  on_stop := inr tt;
  on_print_status := inr tt
|}.



Definition RuntimeError : exn :=
  Exc "RuntimeError" "connection pool exhausted".

(** [execute] itself raises. *)
Definition crashing : Plan := {|
  on_load := inr doc;
  on_create := inr tt;
  on_format := inr "source=snowflake-usage";
  on_report := inr tt;
  on_execute := inl RuntimeError;
  on_stop := inr tt;
  on_print_status := inr tt
|}.

Definition status (w : Workflow) (sigma : World) : option Status :=
  recorded sigma.

Definition the_workflow : Workflow := {| config := doc |}.



Definition BrokenPipeError : exn := Exc "BrokenPipeError" "stdout".

(** The configuration file is not there and the reporter cannot print. *)
Definition broken_reporter : Plan := {|
  on_load := inl FileNotFoundError;
  on_create := inr tt;
  on_format := inr "source=snowflake-usage";
  on_report := inl BrokenPipeError;
  on_execute := inr Success;
  on_stop := inr tt;
  on_print_status := inr tt
|}.

Definition ConnectionError : exn := Exc "ConnectionError" "close failed".

(** The workflow records [Success] and then fails to release its
    resources. *)
Definition stop_fails : Plan := {|
  on_load := inr doc;
  on_create := inr tt;
  on_format := inr "source=snowflake-usage";
  on_report := inr tt;
  on_execute := inr Success;
  on_stop := inl ConnectionError;
  on_print_status := inr tt
|}.

Definition UnicodeEncodeError : exn := Exc "UnicodeEncodeError" "summary".

(** The workflow records [Failure] and then fails to print its summary. *)
Definition print_status_fails : Plan := {|
  on_load := inr doc;
  on_create := inr tt;
  on_format := inr "source=snowflake-usage";
  on_report := inr tt;
  on_execute := inr Failure;
  on_stop := inr tt;
  on_print_status := inl UnicodeEncodeError
|}.

End Script.

(** ** A world that keeps a journal *)

(** The same scripts, played by collaborators that write down, in the world,
    every call they receive with the arguments they were really given. *)
Module Journal.

Inductive seen : Type :=
| saw_load_config_file (config_path : Path)
| saw_create (config_dict : Script.ConfigDict)
| saw_format_config (w : Script.Workflow)
| saw_print_init_error (exc : exn) (config_dict : option Script.ConfigDict)
                       (kind : PipelineType)
| saw_execute (w : Script.Workflow)
| saw_stop (w : Script.Workflow)
| saw_print_status (w : Script.Workflow)
| saw_raise_from_status (w : Script.Workflow).

Record World : Type := { journal : list seen; settled : option Status }.

Definition boot : World := {| journal := []; settled := None |}.

Definition note (s : seen) (sigma : World) : World :=
  {| journal := journal sigma ++ [s]; settled := settled sigma |}.

Definition play (p : Script.Plan)
  : Collaborators Script.ConfigDict Script.Workflow World := {|
  load_config_file := fun path sigma =>
    (Script.on_load p, note (saw_load_config_file path) sigma);
  UsageWorkflow_create := fun d sigma =>
    (match Script.on_create p with
     | inl e => inl e
     | inr _ => inr {| Script.config := d |}
     end, note (saw_create d) sigma);
  format_config := fun w sigma =>
    (Script.on_format p, note (saw_format_config w) sigma);
  format_exc := format_exc (Script.play p);
  print_init_error := fun exc cfg kind sigma =>
    (Script.on_report p, note (saw_print_init_error exc cfg kind) sigma);
  execute := fun w sigma =>
    match Script.on_execute p with
    | inl e => (inl e, note (saw_execute w) sigma)
    | inr s => (inr tt, {| journal := journal sigma ++ [saw_execute w];
                           settled := Some s |})
    end;
  stop := fun w sigma => (Script.on_stop p, note (saw_stop w) sigma);
  print_status := fun w sigma =>
    (Script.on_print_status p, note (saw_print_status w) sigma);
  raise_from_status := fun w sigma =>
    (match settled sigma with
     | Some Success => inr tt
     | _ => inl Script.WorkflowFailed
     end, note (saw_raise_from_status w) sigma)
|}.

Definition status (w : Script.Workflow) (sigma : World) : option Status :=
  settled sigma.

End Journal.


Unset Implicit Arguments.

(** ** Evaluating a run *)

(** Unfold one invocation down to the calls it makes. *)
Ltac unfold_run :=
  unfold ending, calls, run, run_usage in *; cbn in *.

(** Use what is known about a collaborator's answer. *)
Ltac known_answer :=
  match goal with
  | H : ?f = (_, _) |- context [?f] => rewrite H; cbn
  | H : isinstance_Exception ?e = _ |- context [isinstance_Exception ?e] =>
      rewrite H; cbn
  end.

(** Split on a collaborator's answer that is not known, innermost call
    first. *)
Ltac split_answer x :=
  lazymatch x with
  | context [let (_, _) := _ in _] => fail
  | _ => destruct x as [[?exc | ?val] ?sigma] eqn:?; cbn in *
  end.

Ltac any_answer :=
  match goal with
  | |- context [let (_, _) := ?x in _] => split_answer x
  | |- context [if isinstance_Exception ?e then _ else _] =>
      destruct (isinstance_Exception e) eqn:?; cbn in *
  | H : context [let (_, _) := ?x in _] |- _ => split_answer x
  | H : context [if isinstance_Exception ?e then _ else _] |- _ =>
      destruct (isinstance_Exception e) eqn:?; cbn in *
  end.

Ltac follow_run := unfold_run; repeat known_answer.
Ltac every_run := unfold_run; repeat any_answer.

(** ** Failures of the loader *)

(** C3: when [load_config_file] fails, [run_usage] goes through no step
    after the loader, so [UsageWorkflow.create] is never called and no
    workflow is ever bound; when the failure is an [Exception] and the
    reporter returns, the run ends in [sys.exit(1)] and the process exits
    with the initialization-failure code 1. *)
Theorem load_failure_constructs_nothing
  {ConfigDict Workflow World : Type}
  (env : Collaborators ConfigDict Workflow World)
  (config_path : Path) (sigma sigma1 : World) (e : exn) :
  load_config_file env config_path sigma = (inl e, sigma1) ->
  (steps (calls env config_path sigma) = [step_load_config_file]
   /\ workflow (snd (run env config_path sigma)) = None)
  /\ (isinstance_Exception e = true ->
      forall sigma2,
        print_init_error env e None usage sigma1 = (inr tt, sigma2) ->
        ending env config_path sigma = inl (SystemExit 1)
        /\ process_exit_code (ending env config_path sigma) = 1%Z).
Proof.
  intros Hload. split.
  - follow_run. every_run; auto.
  - intros Hexc sigma2 Hreport. follow_run. auto.
Qed.

Lemma load_failure_constructs_nothing_witness :
  steps (calls (Script.play Script.missing_file) "usage.yaml" Script.boot)
  = [step_load_config_file]
  /\ workflow (snd (run (Script.play Script.missing_file) "usage.yaml"
                        Script.boot)) = None
  /\ ending (Script.play Script.missing_file) "usage.yaml" Script.boot
     = inl (SystemExit 1)
  /\ process_exit_code
       (ending (Script.play Script.missing_file) "usage.yaml" Script.boot)
     = 1%Z.
Proof.
  destruct (load_failure_constructs_nothing
              (Script.play Script.missing_file) "usage.yaml"
              Script.boot Script.boot Script.FileNotFoundError eq_refl)
    as [[Hsteps Hunbound] Hexit].
  destruct (Hexit eq_refl Script.boot eq_refl) as [Hending Hcode].
  exact (conj Hsteps (conj Hunbound (conj Hending Hcode))).
Defined.

(** ** Failures of the factory *)

(** C4: when the loader returns a document and [UsageWorkflow.create] rejects
    it with an [Exception], the reporter is run, on the world the factory
    left, with that exception, the loaded document and [PipelineType.usage]:
    the world at the end of the run is the one the reporter leaves.  It is
    the only report.  [execute] is never called (the run goes through the
    loader and the factory only), and when the reporter returns the run ends
    in [sys.exit(1)], a nonzero exit. *)
Theorem rejected_document_is_reported
  {ConfigDict Workflow World : Type}
  (env : Collaborators ConfigDict Workflow World)
  (config_path : Path) (sigma sigma1 sigma2 sigma3 : World)
  (d : ConfigDict) (e : exn) (r : outcome unit) :
  load_config_file env config_path sigma = (inr d, sigma1) ->
  UsageWorkflow_create env d sigma1 = (inl e, sigma2) ->
  isinstance_Exception e = true ->
  print_init_error env e (Some d) usage sigma2 = (r, sigma3) ->
  world (snd (run env config_path sigma)) = sigma3
  /\ reports (calls env config_path sigma) = [(e, Some d, usage)]
  /\ steps (calls env config_path sigma) = [step_load_config_file; step_create]
  /\ ~ In step_execute (steps (calls env config_path sigma))
  /\ (r = inr tt ->
      ending env config_path sigma = inl (SystemExit 1)
      /\ process_exit_code (ending env config_path sigma) <> 0%Z).
Proof.
  intros Hload Hcreate Hexc Hreport.
  destruct r as [e' | []]; follow_run.
  - split; [ reflexivity | split; [ reflexivity | split; [ reflexivity | ] ] ].
    split; [ intros [H | [H | []]]; discriminate H | discriminate ].
  - split; [ reflexivity | split; [ reflexivity | split; [ reflexivity | ] ] ].
    split; [ intros [H | [H | []]]; discriminate H | ].
    intros _. split; [ reflexivity | discriminate ].
Qed.

Lemma rejected_document_is_reported_witness :
  world (snd (run (Journal.play Script.invalid_document) "usage.yaml"
                  Journal.boot))
  = {| Journal.journal :=
         [Journal.saw_load_config_file "usage.yaml";
          Journal.saw_create Script.doc;
          Journal.saw_print_init_error Script.ValidationError
                                       (Some Script.doc) usage];
       Journal.settled := None |}
  /\ ~ In step_execute
         (steps (calls (Journal.play Script.invalid_document) "usage.yaml"
                       Journal.boot))
  /\ ending (Journal.play Script.invalid_document) "usage.yaml" Journal.boot
     = inl (SystemExit 1).
Proof.
  destruct (rejected_document_is_reported
              (Journal.play Script.invalid_document) "usage.yaml"
              Journal.boot _ _ _ Script.doc Script.ValidationError (inr tt)
              eq_refl eq_refl eq_refl eq_refl)
    as (Hworld & _ & _ & Hexecute & Hexit).
  destruct (Hexit eq_refl) as [Hending _].
  exact (conj Hworld (conj Hexecute Hending)).
Defined.

(** ** What the reporter is given *)

(** C7: on an initialization failure with an [Exception] [e], the reporter
    is run once, and the world at the end of the run is the one it leaves:
    it is run on [e], [None] and [PipelineType.usage], in the world the
    loader left, when the loader raised [e]; and on [e], the loaded document
    and [PipelineType.usage], in the world the factory left, when the factory
    raised [e].  In no run is the reporter given a kind other than
    [PipelineType.usage]. *)
Theorem reporter_arguments
  {ConfigDict Workflow World : Type}
  (env : Collaborators ConfigDict Workflow World)
  (config_path : Path) (sigma : World) (e : exn) :
  isinstance_Exception e = true ->
  (forall sigma1,
      load_config_file env config_path sigma = (inl e, sigma1) ->
      reports (calls env config_path sigma) = [(e, None, usage)]
      /\ world (snd (run env config_path sigma))
         = snd (print_init_error env e None usage sigma1))
  /\ (forall d sigma1 sigma2,
        load_config_file env config_path sigma = (inr d, sigma1) ->
        UsageWorkflow_create env d sigma1 = (inl e, sigma2) ->
        reports (calls env config_path sigma) = [(e, Some d, usage)]
        /\ world (snd (run env config_path sigma))
           = snd (print_init_error env e (Some d) usage sigma2))
  /\ (forall exc cfg kind,
        In (exc, cfg, kind) (reports (calls env config_path sigma)) ->
        kind = usage).
Proof.
  intros Hexc. split; [ | split ].
  - intros sigma1 Hload. follow_run. every_run; split; reflexivity.
  - intros d sigma1 sigma2 Hload Hcreate. follow_run.
    every_run; split; reflexivity.
  - intros exc cfg kind. every_run; intros Hin;
      repeat match goal with
             | H : _ \/ _ |- _ => destruct H
             | H : False |- _ => contradiction H
             | H : (_, _) = (_, _) |- _ => inversion H; clear H
             end; reflexivity.
Qed.

Lemma reporter_arguments_witness :
  world (snd (run (Journal.play Script.missing_file) "usage.yaml"
                  Journal.boot))
  = {| Journal.journal :=
         [Journal.saw_load_config_file "usage.yaml";
          Journal.saw_print_init_error Script.FileNotFoundError None usage];
       Journal.settled := None |}
  /\ world (snd (run (Journal.play Script.invalid_document) "usage.yaml"
                     Journal.boot))
     = {| Journal.journal :=
            [Journal.saw_load_config_file "usage.yaml";
             Journal.saw_create Script.doc;
             Journal.saw_print_init_error Script.ValidationError
                                          (Some Script.doc) usage];
          Journal.settled := None |}.
Proof.
  split.
  - exact (proj2 (proj1 (reporter_arguments
                           (Journal.play Script.missing_file) "usage.yaml"
                           Journal.boot Script.FileNotFoundError eq_refl)
                        _ eq_refl)).
  - exact (proj2 (proj1 (proj2 (reporter_arguments
                                  (Journal.play Script.invalid_document)
                                  "usage.yaml" Journal.boot
                                  Script.ValidationError eq_refl))
                        Script.doc _ _ eq_refl eq_refl)).
Defined.

(** ** Caught and uncaught failures *)

(** What is left of a hypothesis that an event is in a concrete trace. *)
Ltac in_trace :=
  repeat match goal with
         | H : _ \/ _ |- _ => destruct H
         | H : False |- _ => contradiction H
         | H : Event _ _ = Event _ _ |- _ => inversion H; clear H; subst
         end.

(** C2: an [Exception] raised by [load_config_file] or by
    [UsageWorkflow.create] does not leave [run_usage]: the reporter is run
    on it (the world at the end is the one the reporter leaves, and it is the
    only report) and, the reporter having returned, the run ends in
    [sys.exit(1)], which is not the exception that was raised and gives
    exit code 1.  An exception raised by [raise_from_status] is the way the
    run ends: nothing catches it, nothing reports it, and [sys.exit] is not
    called. *)
Theorem init_errors_are_caught_status_errors_are_not
  {ConfigDict Workflow World : Type}
  (env : Collaborators ConfigDict Workflow World)
  (config_path : Path) (sigma : World) :
  (forall e sigma1 sigma2,
      load_config_file env config_path sigma = (inl e, sigma1) ->
      isinstance_Exception e = true ->
      print_init_error env e None usage sigma1 = (inr tt, sigma2) ->
      reports (calls env config_path sigma) = [(e, None, usage)]
      /\ world (snd (run env config_path sigma)) = sigma2
      /\ ending env config_path sigma = inl (SystemExit 1)
      /\ ending env config_path sigma <> inl e
      /\ process_exit_code (ending env config_path sigma) = 1%Z)
  /\ (forall d e sigma1 sigma2 sigma3,
        load_config_file env config_path sigma = (inr d, sigma1) ->
        UsageWorkflow_create env d sigma1 = (inl e, sigma2) ->
        isinstance_Exception e = true ->
        print_init_error env e (Some d) usage sigma2 = (inr tt, sigma3) ->
        reports (calls env config_path sigma) = [(e, Some d, usage)]
        /\ world (snd (run env config_path sigma)) = sigma3
        /\ ending env config_path sigma = inl (SystemExit 1)
        /\ ending env config_path sigma <> inl e
        /\ process_exit_code (ending env config_path sigma) = 1%Z)
  /\ (forall d w s e sigma1 sigma2 sigma3 sigma4 sigma5 sigma6 sigma7,
        load_config_file env config_path sigma = (inr d, sigma1) ->
        UsageWorkflow_create env d sigma1 = (inr w, sigma2) ->
        format_config env w sigma2 = (inr s, sigma3) ->
        execute env w sigma3 = (inr tt, sigma4) ->
        stop env w sigma4 = (inr tt, sigma5) ->
        print_status env w sigma5 = (inr tt, sigma6) ->
        raise_from_status env w sigma6 = (inl e, sigma7) ->
        ending env config_path sigma = inl e
        /\ world (snd (run env config_path sigma)) = sigma7
        /\ reports (calls env config_path sigma) = []
        /\ exits (calls env config_path sigma) = [])
  /\ (forall w e,
        In (Event (call_raise_from_status w) (Some e))
           (calls env config_path sigma) ->
        ending env config_path sigma = inl e).
Proof.
  split; [ | split; [ | split ] ].
  - intros e sigma1 sigma2 Hload Hexc Hreport. follow_run.
    repeat split. intros Heq. inversion Heq as [He]. subst e. discriminate.
  - intros d e sigma1 sigma2 sigma3 Hload Hcreate Hexc Hreport. follow_run.
    repeat split. intros Heq. inversion Heq as [He]. subst e. discriminate.
  - intros d w s e sigma1 sigma2 sigma3 sigma4 sigma5 sigma6 sigma7
           Hload Hcreate Hformat Hexecute Hstop Hprint Hraise.
    follow_run. repeat split.
  - intros w e Hraised. every_run; in_trace; reflexivity.
Qed.

Lemma init_errors_are_caught_status_errors_are_not_witness :
  (world (snd (run (Journal.play Script.missing_file) "usage.yaml"
                   Journal.boot))
   = {| Journal.journal :=
          [Journal.saw_load_config_file "usage.yaml";
           Journal.saw_print_init_error Script.FileNotFoundError None usage];
        Journal.settled := None |}
   /\ ending (Journal.play Script.missing_file) "usage.yaml" Journal.boot
      = inl (SystemExit 1))
  /\ (world (snd (run (Journal.play Script.invalid_document) "usage.yaml"
                      Journal.boot))
      = {| Journal.journal :=
             [Journal.saw_load_config_file "usage.yaml";
              Journal.saw_create Script.doc;
              Journal.saw_print_init_error Script.ValidationError
                                           (Some Script.doc) usage];
           Journal.settled := None |}
      /\ ending (Journal.play Script.invalid_document) "usage.yaml"
                Journal.boot
         = inl (SystemExit 1))
  /\ ending (Journal.play Script.failing) "usage.yaml" Journal.boot
     = inl Script.WorkflowFailed.
Proof.
  split; [ | split ].
  - destruct (proj1 (init_errors_are_caught_status_errors_are_not
                       (Journal.play Script.missing_file) "usage.yaml"
                       Journal.boot)
                    Script.FileNotFoundError _ _ eq_refl eq_refl eq_refl)
      as (_ & Hworld & Hending & _).
    exact (conj Hworld Hending).
  - destruct (proj1 (proj2 (init_errors_are_caught_status_errors_are_not
                              (Journal.play Script.invalid_document)
                              "usage.yaml" Journal.boot))
                    Script.doc Script.ValidationError _ _ _
                    eq_refl eq_refl eq_refl eq_refl)
      as (_ & Hworld & Hending & _).
    exact (conj Hworld Hending).
  - exact (proj1 (proj1 (proj2 (proj2
             (init_errors_are_caught_status_errors_are_not
                (Journal.play Script.failing) "usage.yaml" Journal.boot)))
             Script.doc Script.the_workflow "source=snowflake-usage"
             Script.WorkflowFailed _ _ _ _ _ _ _
             eq_refl eq_refl eq_refl eq_refl eq_refl eq_refl eq_refl)).
Defined.



(** ** Runs that reach the workflow *)

(** The journal-keeping workflow honours the status contract whatever the
    script makes [stop] and [print_status] do. *)
Lemma journal_workflow_contract (p : Script.Plan) :
  WorkflowContract (Journal.play p) Journal.status.
Proof.
  constructor; unfold Journal.status; cbn.
  - intros w sigma s r sigma' Hs Hstop. inversion Hstop. exact Hs.
  - intros w sigma s r sigma' Hs Hprint. inversion Hprint. exact Hs.
  - intros w sigma Hs. rewrite Hs. eexists. reflexivity.
  - intros w sigma s Hs Hnot. rewrite Hs.
    exists Script.WorkflowFailed. eexists. split; [ reflexivity | ].
    destruct s; [ contradiction Hnot | | ]; reflexivity.
Qed.

(** C5, as stated, fails: nothing guards [stop].  Here the workflow is
    constructed, [execute] returns with the status settled to [Success], and
    [stop] raises: [print_status] and [raise_from_status] are never called
    and the process exits with code 1. *)
Lemma stop_failure_cuts_the_success_run :
  world (snd (run (Journal.play Script.stop_fails) "usage.yaml" Journal.boot))
  = {| Journal.journal :=
         [Journal.saw_load_config_file "usage.yaml";
          Journal.saw_create Script.doc;
          Journal.saw_format_config Script.the_workflow;
          Journal.saw_execute Script.the_workflow;
          Journal.saw_stop Script.the_workflow];
       Journal.settled := Some Success |}
  /\ steps (calls (Journal.play Script.stop_fails) "usage.yaml" Journal.boot)
     = [step_load_config_file; step_create; step_execute; step_stop]
  /\ ending (Journal.play Script.stop_fails) "usage.yaml" Journal.boot
     = inl Script.ConnectionError
  /\ process_exit_code
       (ending (Journal.play Script.stop_fails) "usage.yaml" Journal.boot)
     = 1%Z
  /\ ~ (forall (env : Collaborators Script.ConfigDict Script.Workflow
                                   Journal.World)
               (config_path : Path)
               (sigma sigma1 sigma2 sigma3 sigma4 : Journal.World)
               (d : Script.ConfigDict) (w : Script.Workflow) (s : string),
          WorkflowContract env Journal.status ->
          load_config_file env config_path sigma = (inr d, sigma1) ->
          UsageWorkflow_create env d sigma1 = (inr w, sigma2) ->
          format_config env w sigma2 = (inr s, sigma3) ->
          execute env w sigma3 = (inr tt, sigma4) ->
          Journal.status w sigma4 = Some Success ->
          steps (calls env config_path sigma) = lifecycle
          /\ process_exit_code (ending env config_path sigma) = 0%Z).
Proof.
  split; [ reflexivity | ]. split; [ reflexivity | ].
  split; [ reflexivity | ]. split; [ reflexivity | ].
  intros Halways.
  destruct (Halways (Journal.play Script.stop_fails) "usage.yaml"
                    Journal.boot _ _ _ _ Script.doc Script.the_workflow
                    "source=snowflake-usage"
                    (journal_workflow_contract Script.stop_fails)
                    eq_refl eq_refl eq_refl eq_refl eq_refl)
    as [Hsteps _].
  discriminate Hsteps.
Qed.

(** C5, amended: when the workflow is constructed, [execute] is reached and
    returns with the status settled to [Success], and [stop] and
    [print_status] then return, [run_usage] runs [stop] once, then
    [print_status], then [raise_from_status], each on the world the one
    before left.  By the status contract [raise_from_status] does not raise;
    the reporter is not called, [run_usage] returns in the world
    [raise_from_status] leaves, and the process exits with code 0. *)
Theorem success_run
  {ConfigDict Workflow World : Type}
  (env : Collaborators ConfigDict Workflow World)
  (status : Workflow -> World -> option Status)
  (config_path : Path)
  (sigma sigma1 sigma2 sigma3 sigma4 sigma5 sigma6 sigma7 : World)
  (d : ConfigDict) (w : Workflow) (s : string) (r : outcome unit) :
  WorkflowContract env status ->
  load_config_file env config_path sigma = (inr d, sigma1) ->
  UsageWorkflow_create env d sigma1 = (inr w, sigma2) ->
  format_config env w sigma2 = (inr s, sigma3) ->
  execute env w sigma3 = (inr tt, sigma4) ->
  status w sigma4 = Some Success ->
  stop env w sigma4 = (inr tt, sigma5) ->
  print_status env w sigma5 = (inr tt, sigma6) ->
  raise_from_status env w sigma6 = (r, sigma7) ->
  r = inr tt
  /\ calls env config_path sigma
     = [Event (call_load_config_file config_path) None;
        Event (call_create d) None;
        Event (call_format_config w) None;
        Event (call_logger_debug ("Using config: " ++ s)%string) None;
        Event (call_execute w) None;
        Event (call_stop w) None;
        Event (call_print_status w) None;
        Event (call_raise_from_status w) None]
  /\ steps (calls env config_path sigma) = lifecycle
  /\ reports (calls env config_path sigma) = []
  /\ world (snd (run env config_path sigma)) = sigma7
  /\ ending env config_path sigma = inr tt
  /\ process_exit_code (ending env config_path sigma) = 0%Z.
Proof.
  intros Hcontract Hload Hcreate Hformat Hexecute Hstatus Hstop Hprint Hraise.
  pose proof (stop_keeps_status Hcontract w sigma4 Hstatus Hstop) as Hstatus5.
  pose proof (print_status_keeps_status Hcontract w sigma5 Hstatus5 Hprint)
    as Hstatus6.
  destruct (raise_from_status_passes Hcontract w sigma6 Hstatus6)
    as (sigma' & Hpasses).
  rewrite Hraise in Hpasses. injection Hpasses as Hr _. subst r.
  follow_run. repeat split.
Qed.

Lemma success_run_witness :
  world (snd (run (Journal.play Script.happy) "usage.yaml" Journal.boot))
  = {| Journal.journal :=
         [Journal.saw_load_config_file "usage.yaml";
          Journal.saw_create Script.doc;
          Journal.saw_format_config Script.the_workflow;
          Journal.saw_execute Script.the_workflow;
          Journal.saw_stop Script.the_workflow;
          Journal.saw_print_status Script.the_workflow;
          Journal.saw_raise_from_status Script.the_workflow];
       Journal.settled := Some Success |}
  /\ ending (Journal.play Script.happy) "usage.yaml" Journal.boot = inr tt
  /\ process_exit_code
       (ending (Journal.play Script.happy) "usage.yaml" Journal.boot) = 0%Z.
Proof.
  destruct (success_run
              (Journal.play Script.happy) Journal.status "usage.yaml"
              Journal.boot _ _ _ _ _ _ _
              Script.doc Script.the_workflow "source=snowflake-usage" _
              (journal_workflow_contract Script.happy)
              eq_refl eq_refl eq_refl eq_refl eq_refl eq_refl eq_refl eq_refl)
    as (_ & _ & _ & _ & Hworld & Hending & Hcode).
  exact (conj Hworld (conj Hending Hcode)).
Defined.

(** C6, as stated, fails: nothing guards [print_status].  Here the workflow
    is constructed, [execute] returns with the status settled to [Failure],
    [stop] returns, and [print_status] raises: [raise_from_status] is never
    called, so it raises nothing, and what leaves [run_usage] is the
    exception of [print_status]. *)
Lemma print_status_failure_hides_the_status :
  world (snd (run (Journal.play Script.print_status_fails) "usage.yaml"
                  Journal.boot))
  = {| Journal.journal :=
         [Journal.saw_load_config_file "usage.yaml";
          Journal.saw_create Script.doc;
          Journal.saw_format_config Script.the_workflow;
          Journal.saw_execute Script.the_workflow;
          Journal.saw_stop Script.the_workflow;
          Journal.saw_print_status Script.the_workflow];
       Journal.settled := Some Failure |}
  /\ steps (calls (Journal.play Script.print_status_fails) "usage.yaml"
                  Journal.boot)
     = [step_load_config_file; step_create; step_execute; step_stop;
        step_print_status]
  /\ ending (Journal.play Script.print_status_fails) "usage.yaml" Journal.boot
     = inl Script.UnicodeEncodeError
  /\ ~ (forall (env : Collaborators Script.ConfigDict Script.Workflow
                                   Journal.World)
               (config_path : Path)
               (sigma sigma1 sigma2 sigma3 sigma4 : Journal.World)
               (d : Script.ConfigDict) (w : Script.Workflow) (s : string),
          WorkflowContract env Journal.status ->
          load_config_file env config_path sigma = (inr d, sigma1) ->
          UsageWorkflow_create env d sigma1 = (inr w, sigma2) ->
          format_config env w sigma2 = (inr s, sigma3) ->
          execute env w sigma3 = (inr tt, sigma4) ->
          Journal.status w sigma4 = Some Failure ->
          exists e,
            In (Event (call_raise_from_status w) (Some e))
               (calls env config_path sigma)).
Proof.
  split; [ reflexivity | ]. split; [ reflexivity | ]. split; [ reflexivity | ].
  intros Halways.
  destruct (Halways (Journal.play Script.print_status_fails) "usage.yaml"
                    Journal.boot _ _ _ _ Script.doc Script.the_workflow
                    "source=snowflake-usage"
                    (journal_workflow_contract Script.print_status_fails)
                    eq_refl eq_refl eq_refl eq_refl eq_refl)
    as (e & Hraised).
  cbn in Hraised.
  repeat match goal with
         | H : _ \/ _ |- _ => destruct H
         | H : False |- _ => contradiction H
         | H : Event _ _ = Event _ _ |- _ => discriminate H
         end.
Qed.

(** C6, amended: when the workflow is constructed, [execute] is reached and
    returns with the status settled to something other than [Success]
    ([Failure] in particular), and [stop] and [print_status] then return,
    [stop] has run, and returned, before [raise_from_status] is run:
    [raise_from_status] is run on the world [print_status] left, which
    [print_status] got from [stop].  By the status contract
    [raise_from_status] raises; its exception is the way [run_usage] ends,
    in the world [raise_from_status] leaves, and the process exits with a
    nonzero code. *)
Theorem failure_run
  {ConfigDict Workflow World : Type}
  (env : Collaborators ConfigDict Workflow World)
  (status : Workflow -> World -> option Status)
  (config_path : Path)
  (sigma sigma1 sigma2 sigma3 sigma4 sigma5 sigma6 sigma7 : World)
  (d : ConfigDict) (w : Workflow) (s : string) (st : Status)
  (r : outcome unit) :
  WorkflowContract env status ->
  load_config_file env config_path sigma = (inr d, sigma1) ->
  UsageWorkflow_create env d sigma1 = (inr w, sigma2) ->
  format_config env w sigma2 = (inr s, sigma3) ->
  execute env w sigma3 = (inr tt, sigma4) ->
  status w sigma4 = Some st ->
  st <> Success ->
  stop env w sigma4 = (inr tt, sigma5) ->
  print_status env w sigma5 = (inr tt, sigma6) ->
  raise_from_status env w sigma6 = (r, sigma7) ->
  exists e,
    r = inl e
    /\ isinstance_Exception e = true
    /\ precedes (Event (call_stop w) None)
                (Event (call_raise_from_status w) (Some e))
                (calls env config_path sigma)
    /\ steps (calls env config_path sigma) = lifecycle
    /\ world (snd (run env config_path sigma)) = sigma7
    /\ ending env config_path sigma = inl e
    /\ process_exit_code (ending env config_path sigma) <> 0%Z.
Proof.
  intros Hcontract Hload Hcreate Hformat Hexecute Hstatus Hfailed
         Hstop Hprint Hraise.
  pose proof (stop_keeps_status Hcontract w sigma4 Hstatus Hstop) as Hstatus5.
  pose proof (print_status_keeps_status Hcontract w sigma5 Hstatus5 Hprint)
    as Hstatus6.
  destruct (raise_from_status_raises Hcontract w sigma6 Hstatus6 Hfailed)
    as (e & sigma' & Hexc & Hraises).
  rewrite Hraise in Hraises. injection Hraises as Hr _. subst r.
  exists e. split; [ reflexivity | split; [ exact Hexc | ] ].
  unfold precedes. follow_run.
  split; [ eexists [_; _; _; _; _], [_], []; reflexivity | ].
  split; [ reflexivity | split; [ reflexivity | split; [ reflexivity | ] ] ].
  destruct e; cbn in *; discriminate.
Qed.

Lemma failure_run_witness :
  exists e,
    precedes (Event (call_stop Script.the_workflow) None)
             (Event (call_raise_from_status Script.the_workflow) (Some e))
             (calls (Journal.play Script.failing) "usage.yaml" Journal.boot)
    /\ world (snd (run (Journal.play Script.failing) "usage.yaml"
                       Journal.boot))
       = {| Journal.journal :=
              [Journal.saw_load_config_file "usage.yaml";
               Journal.saw_create Script.doc;
               Journal.saw_format_config Script.the_workflow;
               Journal.saw_execute Script.the_workflow;
               Journal.saw_stop Script.the_workflow;
               Journal.saw_print_status Script.the_workflow;
               Journal.saw_raise_from_status Script.the_workflow];
            Journal.settled := Some Failure |}
    /\ ending (Journal.play Script.failing) "usage.yaml" Journal.boot = inl e
    /\ process_exit_code
         (ending (Journal.play Script.failing) "usage.yaml" Journal.boot)
       <> 0%Z.
Proof.
  destruct (failure_run
              (Journal.play Script.failing) Journal.status "usage.yaml"
              Journal.boot _ _ _ _ _ _ _
              Script.doc Script.the_workflow "source=snowflake-usage"
              Failure _
              (journal_workflow_contract Script.failing)
              eq_refl eq_refl eq_refl eq_refl eq_refl
              (fun H : Failure = Success => eq_ind Failure
                 (fun st => match st with Failure => True | _ => False end)
                 I Success H)
              eq_refl eq_refl eq_refl)
    as (e & _ & _ & Hbefore & _ & Hworld & Hending & Hcode).
  exists e. exact (conj Hbefore (conj Hworld (conj Hending Hcode))).
Defined.

(** ** The order of the steps *)

Section TraceFacts.

Context {ConfigDict Workflow : Type}.



End TraceFacts.






(** ** The two diagnostic paths *)




(** ** What is logged at debug level *)

(** C8, as stated, fails: [execute] raises, the run fails, and the only
    debug message of the run is the one of line 41; no traceback is
    logged. *)
Lemma runtime_failure_logs_no_traceback :
  ending (Script.play Script.crashing) "usage.yaml" Script.boot
  = inl Script.RuntimeError
  /\ debug_log (calls (Script.play Script.crashing) "usage.yaml" Script.boot)
     = ["Using config: source=snowflake-usage"]
  /\ ~ (exists e,
          In (format_exc (Script.play Script.crashing) e)
             (debug_log (calls (Script.play Script.crashing) "usage.yaml"
                               Script.boot)))
  /\ ~ (forall (env : Collaborators Script.ConfigDict Script.Workflow
                                   Script.World)
               (config_path : Path) (sigma : Script.World) (e : exn),
          ending env config_path sigma = inl e ->
          exists e',
            In (format_exc env e') (debug_log (calls env config_path sigma))).
Proof.
  assert (Hnone :
    ~ (exists e,
          In (format_exc (Script.play Script.crashing) e)
             (debug_log (calls (Script.play Script.crashing) "usage.yaml"
                               Script.boot)))).
  { intros (e & Hlogged). cbn in Hlogged.
    destruct Hlogged as [Hsame | []]. destruct e; discriminate Hsame. }
  split; [ reflexivity | split; [ reflexivity | split; [ exact Hnone | ] ] ].
  intros Halways. apply Hnone.
  exact (Halways (Script.play Script.crashing) "usage.yaml" Script.boot
                 Script.RuntimeError eq_refl).
Qed.

(** C8, amended: when a call of the [try] block (the loader, the factory,
    the rendering of [workflow.config]) raises an [Exception], the run logs
    [traceback.format_exc()] at debug level.  When [execute], [stop],
    [print_status] or [raise_from_status] raises, [run_usage] logs no
    traceback: its debug log holds the message of line 41 and nothing
    else. *)
Theorem traceback_logged_in_the_handler_only
  {ConfigDict Workflow World : Type}
  (env : Collaborators ConfigDict Workflow World)
  (config_path : Path) (sigma : World) (c : call ConfigDict Workflow)
  (e : exn) :
  In (Event c (Some e)) (calls env config_path sigma) ->
  (in_try_block c = true ->
   isinstance_Exception e = true ->
   In (format_exc env e) (debug_log (calls env config_path sigma)))
  /\ (after_try_block c = true ->
      exists s,
        debug_log (calls env config_path sigma)
        = [("Using config: " ++ s)%string]).
Proof.
  intros Hraised. split.
  - intros Htry Hexc.
    every_run; in_trace; cbn in *; try discriminate; try congruence; auto.
  - intros Hafter.
    every_run; in_trace; cbn in *; try discriminate;
      eexists; reflexivity.
Qed.

Lemma traceback_logged_in_the_handler_only_witness :
  In (format_exc (Script.play Script.invalid_document) Script.ValidationError)
     (debug_log (calls (Script.play Script.invalid_document) "usage.yaml"
                       Script.boot))
  /\ exists s,
      debug_log (calls (Script.play Script.crashing) "usage.yaml" Script.boot)
      = [("Using config: " ++ s)%string].
Proof.
  split.
  - apply (proj1 (traceback_logged_in_the_handler_only
                    (Script.play Script.invalid_document) "usage.yaml"
                    Script.boot (call_create Script.doc)
                    Script.ValidationError
                    (or_intror (or_introl eq_refl)))
                 eq_refl eq_refl).
  - apply (proj2 (traceback_logged_in_the_handler_only
                    (Script.play Script.crashing) "usage.yaml"
                    Script.boot (call_execute Script.the_workflow)
                    Script.RuntimeError
                    (or_intror (or_intror (or_intror (or_intror
                       (or_introl eq_refl))))))
                 eq_refl).
Defined.

(** ** Further properties of [run_usage] *)





(** X2: the handler protects nothing of its own.  When the reporter raises,
    [sys.exit] is never called and the reporter's exception, not the one
    being reported, is the way [run_usage] ends. *)
Theorem reporter_exception_replaces_the_exit
  {ConfigDict Workflow World : Type}
  (env : Collaborators ConfigDict Workflow World)
  (config_path : Path) (sigma : World)
  (exc : exn) (cfg : option ConfigDict) (kind : PipelineType) (e : exn) :
  In (Event (call_print_init_error exc cfg kind) (Some e))
     (calls env config_path sigma) ->
  ending env config_path sigma = inl e
  /\ exits (calls env config_path sigma) = [].
Proof.
  intros Hraised.
  every_run; in_trace; split; reflexivity.
Qed.

Lemma reporter_exception_replaces_the_exit_witness :
  ending (Script.play Script.broken_reporter) "usage.yaml" Script.boot
  = inl Script.BrokenPipeError
  /\ exits (calls (Script.play Script.broken_reporter) "usage.yaml"
                  Script.boot) = [].
Proof.
  apply (reporter_exception_replaces_the_exit
           (Script.play Script.broken_reporter) "usage.yaml" Script.boot
           Script.FileNotFoundError None usage Script.BrokenPipeError).
  cbn. auto.
Defined.




(** X5: what one call returns is what the next is given.  The loader is
    only ever called on the path [run_usage] was given, the factory only on
    the document the loader returned, and every call on a workflow (the
    rendering of its configuration, [execute], [stop], [print_status],
    [raise_from_status]) is made on the workflow the factory returned. *)
Theorem results_flow_into_the_next_call
  {ConfigDict Workflow World : Type}
  (env : Collaborators ConfigDict Workflow World)
  (config_path : Path) (sigma : World) :
  (forall p r,
      In (Event (call_load_config_file p) r) (calls env config_path sigma) ->
      p = config_path)
  /\ (forall d sigma1,
        load_config_file env config_path sigma = (inr d, sigma1) ->
        (forall d' r,
            In (Event (call_create d') r) (calls env config_path sigma) ->
            d' = d)
        /\ (forall w sigma2,
              UsageWorkflow_create env d sigma1 = (inr w, sigma2) ->
              forall c r w',
                In (Event c r) (calls env config_path sigma) ->
                workflow_of c = Some w' ->
                w' = w)).
Proof.
  split.
  - intros p r Hcalled. every_run; in_trace; reflexivity.
  - intros d sigma1 Hload. split.
    + intros d' r Hcalled. revert Hcalled. follow_run.
      every_run; intros Hcalled; in_trace; reflexivity.
    + intros w sigma2 Hcreate c r w' Hcalled Hon. revert Hcalled. follow_run.
      every_run; intros Hcalled; in_trace; cbn in Hon; congruence.
Qed.

Lemma results_flow_into_the_next_call_witness :
  Forall (fun ev =>
            forall w', workflow_of (ev_call ev) = Some w' ->
                       w' = Script.the_workflow)
         (calls (Script.play Script.happy) "usage.yaml" Script.boot).
Proof.
  apply Forall_forall. intros [c r] Hcalled w' Hon.
  apply (proj2 (proj2 (results_flow_into_the_next_call
                         (Script.play Script.happy) "usage.yaml" Script.boot)
                      Script.doc Script.boot eq_refl)
               Script.the_workflow Script.boot eq_refl c r w' Hcalled Hon).
Defined.





